(** * speech-to-text: the transcription request pipeline of [server.js]

    A shallow embedding of the Express application of [server.js]: the
    [POST /transcribe] handler with its temporary-file bookkeeping, the
    [convertAudioToWav] helper and the [GET /health] handler.

    The collaborators the program only calls (the file system, the
    transcoder process, the WAV decoder, the speech model, the clock and the
    upload middleware) are not part of the repository; their answers are
    inputs of the model (record [env]) and every theorem quantifies over
    them. *)

From stdpp Require Import gmap strings list pretty.

Local Open Scope string_scope.
Set Warnings "-clear-no-such-hyp".

(** ** Values shared by every part of the model *)

(** A JavaScript [Error]: the handler only ever reads [error.message]. *)
Record js_error := JsError { message : string }.

(** Result of a call that may throw. *)
Inductive except (A : Type) :=
| Ok (a : A)
| Throw (e : js_error).
Arguments Ok {A} a.
Arguments Throw {A} e.

(** The JSON objects handed to [res.json]: flat, with string members. *)
Definition json := list (string * string).

Inductive body :=
| Json (j : json)
| Html.

Record response := Response { status : N; payload : body }.

(** [res.json(obj)] with the default status. *)
Definition res_json (j : json) : response := Response 200 (Json j).
(** [res.status(code).json(obj)]. *)
Definition res_status_json (code : N) (j : json) : response := Response code (Json j).

(** [{ error: msg }] and [{ text: t }]. *)
Definition error_body (msg : string) : json := [("error", msg)].
Definition text_body (t : string) : json := [("text", t)].

(** Lines written with [console.log] / [console.error] by the handler. *)
Inductive console_entry :=
| LogReceived (originalname : string) (size : N)   (* l.73 *)
| LogTranscribing                                  (* l.93 *)
| LogTranscription (text : string)                 (* l.98 *)
| LogError (e : js_error).                         (* l.103 *)

(** ** The transcoder command built by [convertAudioToWav] (l.42-49) *)

Record ffmpeg_command := FfmpegCommand {
  cmd_input : string;
  cmd_audioChannels : option N;
  cmd_audioFrequency : option N;
  cmd_audioCodec : option string;
  cmd_format : option string;
}.

Definition ffmpeg (inputPath : string) : ffmpeg_command :=
  FfmpegCommand inputPath None None None None.
Definition audioChannels (n : N) (c : ffmpeg_command) : ffmpeg_command :=
  FfmpegCommand (cmd_input c) (Some n) (cmd_audioFrequency c) (cmd_audioCodec c) (cmd_format c).
Definition audioFrequency (hz : N) (c : ffmpeg_command) : ffmpeg_command :=
  FfmpegCommand (cmd_input c) (cmd_audioChannels c) (Some hz) (cmd_audioCodec c) (cmd_format c).
Definition audioCodec (codec : string) (c : ffmpeg_command) : ffmpeg_command :=
  FfmpegCommand (cmd_input c) (cmd_audioChannels c) (cmd_audioFrequency c) (Some codec) (cmd_format c).
Definition format (fmt : string) (c : ffmpeg_command) : ffmpeg_command :=
  FfmpegCommand (cmd_input c) (cmd_audioChannels c) (cmd_audioFrequency c) (cmd_audioCodec c) (Some fmt).

(** The chain [ffmpeg(inputPath).audioChannels(1).audioFrequency(16000)
    .audioCodec('pcm_s16le').format('wav')] of l.42-46. *)
Definition convert_command (inputPath : string) : ffmpeg_command :=
  format "wav" (audioCodec "pcm_s16le" (audioFrequency 16000 (audioChannels 1 (ffmpeg inputPath)))).

(** Collaborators invoked by a request, in the order of invocation. *)
Inductive call :=
| CallFfmpeg (cmd : ffmpeg_command) (outputPath : string)   (* [.save(outputPath)], l.49 *)
| CallReadFile (filepath : string)                          (* l.55 *)
| CallWavDecode                                             (* l.60 *)
| CallTranscriber.                                          (* l.96 *)

(** ** Paths *)

(** [path.join(dir, name)] on POSIX for a directory name without trailing
    separator and a plain file name. *)
Definition path_join (dir name : string) : string := dir +:+ "/" +:+ name.

(** l.79-82: [path.join('uploads', `converted_${Date.now()}.wav`)]; the
    template literal prints the integer clock reading in decimal. *)
Definition wavFilePath (now : Z) : string :=
  path_join "uploads" ("converted_" +:+ pretty now +:+ ".wav").

(** l.21-24: the multer configuration. *)
Definition upload_dest : string := "uploads/".
Definition fileSize_limit : N := 20 * 1024 * 1024.

(** l.117: the identifier reported by the health check. *)
Definition health_model : string := "whisper-tiny.en".

(** ** The file system, the console and the collaborators *)

Section Pipeline.

(** File contents and decoded amplitudes are opaque to the pipeline: it
    moves them between collaborators and never inspects them. *)
Context {content sample : Type}.

(** The part of the disk the program touches. [undeletable] holds the paths
    whose removal the operating system refuses (EPERM, EBUSY, EACCES). *)
Record filesystem := Filesystem {
  files : gmap string content;
  undeletable : gset string;
}.

Definition write_file (p : string) (d : content) (fs : filesystem) : filesystem :=
  Filesystem (<[p := d]> (files fs)) (undeletable fs).

(** [fs.existsSync(p)]. *)
Definition existsSync (p : string) (fs : filesystem) : bool :=
  bool_decide (is_Some (files fs !! p)).

(** [fs.unlinkSync(p)]. *)
Definition unlinkSync (p : string) (fs : filesystem) : except filesystem :=
  match files fs !! p with
  | None => Throw (JsError ("ENOENT: no such file or directory, unlink '" +:+ p +:+ "'"))
  | Some _ =>
      if bool_decide (p ∈ undeletable fs)
      then Throw (JsError ("EPERM: operation not permitted, unlink '" +:+ p +:+ "'"))
      else Ok (Filesystem (delete p (files fs)) (undeletable fs))
  end.

(** l.54-56 [readFileBuffer]: [fs.readFileSync(filepath)]. *)
Definition readFileBuffer (filepath : string) (fs : filesystem) : except content :=
  match files fs !! filepath with
  | Some d => Ok d
  | None => Throw (JsError ("ENOENT: no such file or directory, open '" +:+ filepath +:+ "'"))
  end.

(** What the process observes and changes outside its own variables. The
    console holds the lines [server.js] itself writes; what the framework
    logs on its own account is not recorded. *)
Record world := World {
  fs : filesystem;
  console : list console_entry;
  calls : list call;
}.

Definition set_fs (f : filesystem) (w : world) : world := World f (console w) (calls w).
Definition console_log (c : console_entry) (w : world) : world :=
  World (fs w) (console w ++ [c]) (calls w).
Definition invoke (c : call) (w : world) : world := World (fs w) (console w) (calls w ++ [c]).

(** How a run of the transcoder process ends: the ['end'] event after the
    output was written, or the ['error'] event, possibly after part of the
    output was written. *)
Inductive transcode_result :=
| Ended (output : content)
| Errored (e : js_error) (partial : option content).

(** [req.file] as multer's disk storage fills it in. *)
Record file := File { originalname : string; size : N; path : string }.

(** Answers of the collaborators during one request; for a promise the
    handler awaits, what the promise settles to. Promises that stay pending
    are the subject of [settling] and [step_pending] below. *)
Record env := Env {
  (** the random file name multer's disk storage picks for the upload *)
  upload_name : string;
  (** [Date.now()] as read on l.81 *)
  now : Z;
  (** the transcoder process run on a command, an output path and a disk *)
  transcode : ffmpeg_command → string → filesystem → transcode_result;
  (** [wav.decode(buffer)]: the [channelData] of the decoded file, or a throw *)
  wav_decode : content → except (list (list sample));
  (** the module variable [transcriber] (l.27) when l.96 runs: [None] while
      the model is still loading, else the model, from the samples to
      [result.text] or a throw *)
  transcriber : option (option (list sample) → except string);
}.

(** l.59-62 [decodeWavToFloat32]: [wav.decode(buffer).channelData[0]];
    indexing an empty array yields [undefined], here [None]. *)
Definition decodeWavToFloat32 (E : env) (buffer : content) : except (option (list sample)) :=
  match wav_decode E buffer with
  | Ok channelData => Ok (head channelData)
  | Throw e => Throw e
  end.

(** l.40-51 [convertAudioToWav], from the call to the settling of the
    promise: the command is built and saved to [outputPath], the process
    runs, and ['end'] resolves with [outputPath] while ['error'] rejects with
    the error. *)
Definition spawn_convert (inputPath outputPath : string) (w : world) : world :=
  invoke (CallFfmpeg (convert_command inputPath) outputPath) w.

Definition finish_convert (E : env) (inputPath outputPath : string) (w : world)
  : world * except string :=
  match transcode E (convert_command inputPath) outputPath (fs w) with
  | Ended d => (set_fs (write_file outputPath d (fs w)) w, Ok outputPath)
  | Errored e (Some d) => (set_fs (write_file outputPath d (fs w)) w, Throw e)
  | Errored e None => (w, Throw e)
  end.

Definition convertAudioToWav (E : env) (inputPath outputPath : string) (w : world)
  : world * except string :=
  finish_convert E inputPath outputPath (spawn_convert inputPath outputPath w).

(** ** The handler of [POST /transcribe] (l.65-113) as a step machine

    One step per statement; the program counter carries the local constants
    that are live at that point. [Converting] is the time during which the
    transcoder process runs and the handler is suspended at the [await] of
    l.85; [AtResume] is the moment the promise has settled and the handler
    is about to continue. [AwaitTranscribe] is the suspension at the [await]
    of l.96, with the outcome the model's promise settles to. *)

Inductive pc :=
| AtCheck                                              (* l.69 *)
| AtLogReceived (f : file)                             (* l.73 *)
| AtPushInput (f : file)                               (* l.75-76 *)
| AtWavPath (inputFilePath : string)                   (* l.79-82 *)
| AtPushWav (inputFilePath wavPath : string)           (* l.83 *)
| AtConvert (inputFilePath wavPath : string)           (* l.85, the call *)
| Converting (inputFilePath wavPath : string)          (* l.85, suspended *)
| AtResume (settled : except string) (wavPath : string) (* l.85, resumed *)
| AtRead (wavPath : string)                            (* l.88 *)
| AtDecode (wavBuffer : content)                       (* l.91 *)
| AtLogTranscribing (audioData : option (list sample)) (* l.93 *)
| AtTranscribe (audioData : option (list sample))      (* l.96, the call *)
| AwaitTranscribe (settled : except string)            (* l.96, suspended *)
| AtLogResult (text : string)                          (* l.98 *)
| AtRespond (text : string)                            (* l.100 *)
| AtCatch (e : js_error)                               (* l.103 *)
| AtCatchRespond (e : js_error)                        (* l.104 *)
| AtFinally (rest : list string)                       (* l.107-111 *)
| Exited.

(** The variables of one invocation of the handler. *)
Record task := Task {
  req_file : option file;      (* [req.file] *)
  at_pc : pc;
  tempFiles : list string;     (* l.66 *)
  res : option response;       (* what was sent on [res], if anything *)
}.

Definition goto (p : pc) (t : task) : task := Task (req_file t) p (tempFiles t) (res t).
(** [tempFiles.push(x)] *)
Definition push (x : string) (t : task) : task :=
  Task (req_file t) (at_pc t) (tempFiles t ++ [x]) (res t).
Definition send (r : response) (t : task) : task :=
  Task (req_file t) (at_pc t) (tempFiles t) (Some r).

(** l.66: the handler starts with an empty cleanup list. *)
Definition start (rf : option file) : task := Task rf AtCheck [] None.

(** l.108-110, the body of the [forEach] callback: the removal is attempted
    only for an existing path, and whatever [unlinkSync] throws is caught by
    the empty [catch]. *)
Definition cleanup_file (p : string) (d : filesystem) : filesystem :=
  if existsSync p d then
    match unlinkSync p d with
    | Ok d' => d'
    | Throw _ => d
    end
  else d.

Definition step (E : env) (s : task * world) : task * world :=
  let (t, w) := s in
  match at_pc t with
  | AtCheck =>
      match req_file t with
      | None =>
          (goto (AtFinally (tempFiles t))
             (send (res_status_json 400 (error_body "No audio file provided")) t), w)
      | Some f => (goto (AtLogReceived f) t, w)
      end
  | AtLogReceived f =>
      (goto (AtPushInput f) t, console_log (LogReceived (originalname f) (size f)) w)
  | AtPushInput f => (goto (AtWavPath (path f)) (push (path f) t), w)
  | AtWavPath i => (goto (AtPushWav i (wavFilePath (now E))) t, w)
  | AtPushWav i o => (goto (AtConvert i o) (push o t), w)
  | AtConvert i o => (goto (Converting i o) t, spawn_convert i o w)
  | Converting i o =>
      let (w', r) := finish_convert E i o w in (goto (AtResume r o) t, w')
  | AtResume (Ok _) o => (goto (AtRead o) t, w)
  | AtResume (Throw e) _ => (goto (AtCatch e) t, w)
  | AtRead o =>
      match readFileBuffer o (fs w) with
      | Ok b => (goto (AtDecode b) t, invoke (CallReadFile o) w)
      | Throw e => (goto (AtCatch e) t, invoke (CallReadFile o) w)
      end
  | AtDecode b =>
      match decodeWavToFloat32 E b with
      | Ok a => (goto (AtLogTranscribing a) t, invoke CallWavDecode w)
      | Throw e => (goto (AtCatch e) t, invoke CallWavDecode w)
      end
  | AtLogTranscribing a => (goto (AtTranscribe a) t, console_log LogTranscribing w)
  | AtTranscribe a =>
      match transcriber E with
      | None => (goto (AtCatch (JsError "transcriber is not a function")) t, w)
      | Some model => (goto (AwaitTranscribe (model a)) t, invoke CallTranscriber w)
      end
  | AwaitTranscribe (Ok text) => (goto (AtLogResult text) t, w)
  | AwaitTranscribe (Throw e) => (goto (AtCatch e) t, w)
  | AtLogResult text => (goto (AtRespond text) t, console_log (LogTranscription text) w)
  | AtRespond text => (goto (AtFinally (tempFiles t)) (send (res_json (text_body text)) t), w)
  | AtCatch e => (goto (AtCatchRespond e) t, console_log (LogError e) w)
  | AtCatchRespond e =>
      (goto (AtFinally (tempFiles t)) (send (res_status_json 500 (error_body (message e))) t), w)
  | AtFinally (p :: rest) => (goto (AtFinally rest) t, set_fs (cleanup_file p (fs w)) w)
  | AtFinally [] => (goto Exited t, w)
  | Exited => (t, w)
  end.

Fixpoint run (E : env) (n : nat) (s : task * world) : task * world :=
  match n with
  | O => s
  | S n' => run E n' (step E s)
  end.

(** The longest path through the handler: fifteen steps up to the success
    response, the two recorded files and the end of the [forEach]. *)
Definition handler_steps : nat := 18.

Definition transcribe_handler (E : env) (rf : option file) (w : world) : task * world :=
  run E handler_steps (start rf, w).

(** ** The route [POST /transcribe] with its upload middleware (l.21-24, l.65) *)

(** The file part of the multipart body: requests carry at most one, under
    the field [audio]. *)
Record audio_part := AudioPart {
  part_originalname : string;
  part_size : N;
  part_data : content;
}.

(** What [upload.single('audio')] hands to Express: [next()] with [req.file]
    set or left undefined, or [next(err)]. *)
Inductive upload_outcome :=
| Passed (rf : option file)
| Rejected (e : js_error).

(** The upload middleware is a library outside this repository; this is its
    contract under the configuration of l.21-24, for a form with at most one
    file part, sent under [audio]: a file above [limits.fileSize] is refused
    with the error "File too large" and nothing of it is kept in [dest]; any
    other file is stored in [dest] under a name of multer's choice. Forms
    the middleware refuses for another reason (a file under another field, a
    second file) are not described. *)
Definition upload_single (E : env) (u : option audio_part) (d : filesystem)
  : filesystem * upload_outcome :=
  match u with
  | None => (d, Passed None)
  | Some u =>
      if bool_decide (fileSize_limit < part_size u)%N
      then (d, Rejected (JsError "File too large"))
      else
        let p := upload_dest +:+ upload_name E in
        (write_file p (part_data u) d, Passed (Some (File (part_originalname u) (part_size u) p)))
  end.

(** The answer of Express's built-in error handler, a library outside this
    repository, which takes over when a middleware calls [next(err)] and the
    application has registered no error-handling middleware ([server.js]
    registers none): status 500 for an error without a status of its own,
    and an HTML page. Only the answer is described, not what the framework
    logs. *)
Definition default_error_response (e : js_error) : response := Response 500 Html.

Definition post_transcribe (E : env) (u : option audio_part) (w : world)
  : world * option response :=
  match upload_single E u (fs w) with
  | (d, Rejected e) => (set_fs d w, Some (default_error_response e))
  | (d, Passed rf) =>
      let (t, w') := transcribe_handler E rf (set_fs d w) in (w', res t)
  end.

(** ** The route [GET /health] (l.116-118) *)

Definition get_health (E : env) (w : world) : world * response :=
  (w, res_json [("status", "ok"); ("model", health_model)]).

(** ** Notions used to state the properties *)

(** The upload file that multer has written for the request and that the
    handler has not yet pushed on [tempFiles]: the push is on l.76. *)
Definition unrecorded_upload (t : task) : gset string :=
  match at_pc t with
  | AtCheck => match req_file t with Some f => {[path f]} | None => ∅ end
  | AtLogReceived f | AtPushInput f => {[path f]}
  | _ => ∅
  end.

(** The handler is past the push of l.76. *)
Definition past_upload_push (p : pc) : bool :=
  match p with
  | AtCheck | AtLogReceived _ | AtPushInput _ => false
  | _ => true
  end.

(** Bookkeeping invariant of the handler, relative to the paths [D0] that
    existed before the request and the set [U] of undeletable paths: every
    other path on disk is on [tempFiles] or is the upload not yet pushed; the
    output path is on [tempFiles] when the transcoder is started and while it
    runs; during the cleanup the paths still on disk are the ones the loop
    has yet to visit or could not remove. *)
Definition covered (D0 U : gset string) (s : task * world) : Prop :=
  let (t, w) := s in
  undeletable (fs w) = U ∧
  dom (files (fs w)) ⊆ D0 ∪ list_to_set (tempFiles t) ∪ unrecorded_upload t ∧
  match at_pc t with
  | AtConvert _ o | Converting _ o => o ∈ tempFiles t
  | AtFinally rest => dom (files (fs w)) ⊆ D0 ∪ list_to_set rest ∪ U
  | Exited => dom (files (fs w)) ⊆ D0 ∪ U
  | _ => True
  end.

(** An upper bound on the number of steps the handler still takes. *)
Definition steps_left (t : task) : nat :=
  match at_pc t with
  | AtCheck => 18 + length (tempFiles t)
  | AtLogReceived _ => 17 + length (tempFiles t)
  | AtPushInput _ => 16 + length (tempFiles t)
  | AtWavPath _ => 14 + length (tempFiles t)
  | AtPushWav _ _ => 13 + length (tempFiles t)
  | AtConvert _ _ => 11 + length (tempFiles t)
  | Converting _ _ => 10 + length (tempFiles t)
  | AtResume _ _ => 9 + length (tempFiles t)
  | AtRead _ => 8 + length (tempFiles t)
  | AtDecode _ => 7 + length (tempFiles t)
  | AtLogTranscribing _ => 6 + length (tempFiles t)
  | AtTranscribe _ => 5 + length (tempFiles t)
  | AwaitTranscribe _ => 4 + length (tempFiles t)
  | AtLogResult _ => 3 + length (tempFiles t)
  | AtRespond _ => 2 + length (tempFiles t)
  | AtCatch _ => 3 + length (tempFiles t)
  | AtCatchRespond _ => 2 + length (tempFiles t)
  | AtFinally rest => 1 + length rest
  | Exited => 0
  end.

(** The three stages after the upload, failing with the error [e] for the
    request file [f] on the disk [d]: the transcoder ends with ['error']; or
    it succeeds and [wav.decode] throws; or both succeed and the call of the
    model throws, be it the loaded model or the still undefined variable. *)
Inductive stage_failure (E : env) (f : file) (d : filesystem) : js_error → Prop :=
| ConversionFailed e partial :
    transcode E (convert_command (path f)) (wavFilePath (now E)) d = Errored e partial →
    stage_failure E f d e
| DecodeFailed out e :
    transcode E (convert_command (path f)) (wavFilePath (now E)) d = Ended out →
    wav_decode E out = Throw e →
    stage_failure E f d e
| InferenceFailed out channelData model e :
    transcode E (convert_command (path f)) (wavFilePath (now E)) d = Ended out →
    wav_decode E out = Ok channelData →
    transcriber E = Some model →
    model (head channelData) = Throw e →
    stage_failure E f d e
| ModelUndefined out channelData :
    transcode E (convert_command (path f)) (wavFilePath (now E)) d = Ended out →
    wav_decode E out = Ok channelData →
    transcriber E = None →
    stage_failure E f d (JsError "transcriber is not a function").

(** ** Two requests in flight

    The handlers of two requests share the disk and the console. A handler
    runs without interruption from one suspension point to the next: control
    can pass to the other handler only before the first statement, while the
    transcoder runs, once a promise has settled and the continuation is
    queued, and after the handler has exited. *)

Inductive actor := First | Second.

Definition yields (p : pc) : bool :=
  match p with
  | AtCheck | Converting _ _ | AtResume _ _ | AwaitTranscribe _ | Exited => true
  | _ => false
  end.

Definition step_pair (E1 E2 : env) (who : actor) (st : task * task * world)
  : task * task * world :=
  let '(t1, t2, w) := st in
  match who with
  | First => let (t1', w') := step E1 (t1, w) in (t1', t2, w')
  | Second => let (t2', w') := step E2 (t2, w) in (t1, t2', w')
  end.

Definition may_run (running : option actor) (who : actor) (st : task * task * world) : bool :=
  let '(t1, t2, _) := st in
  match running, who with
  | None, _ | Some First, First | Some Second, Second => true
  | Some First, Second => yields (at_pc t1)
  | Some Second, First => yields (at_pc t2)
  end.

(** Runs a schedule; [None] when the schedule takes control from a handler
    that is not at a suspension point. *)
Fixpoint interleave (E1 E2 : env) (running : option actor) (sched : list actor)
    (st : task * task * world) : option (task * task * world) :=
  match sched with
  | [] => Some st
  | who :: rest =>
      if may_run running who st
      then interleave E1 E2 (Some who) rest (step_pair E1 E2 who st)
      else None
  end.

End Pipeline.

Arguments filesystem : clear implicits.
Arguments world : clear implicits.
Arguments env : clear implicits.
Arguments pc : clear implicits.
Arguments task : clear implicits.
Arguments audio_part : clear implicits.
Arguments transcode_result : clear implicits.

(** ** Concrete collaborators and requests used in the examples *)

(** A transcoder that copies its input file and fails when there is none. *)
Definition copy_transcode (cmd : ffmpeg_command) (outputPath : string)
    (d : filesystem string) : transcode_result string :=
  match files d !! cmd_input cmd with
  | Some x => Ended x
  | None => Errored (JsError "ffmpeg exited with code 1") None
  end.

(** A model that names the audio it was given. *)
Definition naming_model (audioData : option (list string)) : except string :=
  match audioData with
  | Some [x] => Ok ("transcript of " +:+ x)
  | _ => Throw (JsError "unexpected input")
  end.

Definition clock : Z := 1700000000000.

(** A process whose model is loaded, and one whose model is still loading. *)
Definition ready_env (name : string) : env string string :=
  Env name clock copy_transcode (λ b, Ok [[b]]) (Some naming_model).
Definition loading_env (name : string) : env string string :=
  Env name clock copy_transcode (λ b, Ok [[b]]) None.
(** A process whose transcoder rejects the upload. *)
Definition failing_env (name : string) : env string string :=
  Env name clock
    (λ _ _ _, Errored (JsError "ffmpeg exited with code 1: Invalid data found when processing input") None)
    (λ b, Ok [[b]]) (Some naming_model).

Definition empty_world : world string := World (Filesystem ∅ ∅) [] [].
(** A disk on which the converted file of this clock reading cannot be removed. *)
Definition locked_world : world string :=
  World (Filesystem ∅ {[wavFilePath clock]}) [] [].

Definition clip : audio_part string := AudioPart "clip.mp3" 3 "abc".
Definition other_clip : audio_part string := AudioPart "memo.ogg" 3 "xyz".

(** [req.file] of [clip] stored under the name [a1], and of [other_clip]
    stored under the name [b2]. *)
Definition first_file : file := File "clip.mp3" 3 "uploads/a1".
Definition second_file : file := File "memo.ogg" 3 "uploads/b2".

(** The world once multer has stored [clip] under the name [a1]. *)
Definition uploaded (w : world string) : world string :=
  set_fs (write_file "uploads/a1" "abc" (fs w)) w.

(** The state in which the [finally] block of a successful request starts,
    on the disk that refuses to remove the converted file. *)
Definition at_cleanup : task string string * world string :=
  run (ready_env "a1") 15 (start (Some first_file), uploaded locked_world).

(** Both uploads stored, no handler started yet. *)
Definition both_uploaded : world string :=
  set_fs (write_file "uploads/b2" "xyz" (fs (uploaded empty_world))) empty_world.

(** Two requests that read the same clock value: each handler runs up to the
    start of its transcoder; both transcoders finish; the first handler runs
    to its end; then the second does. *)
Definition colliding_schedule : list actor :=
  replicate 6 First ++ replicate 6 Second ++ [First; Second] ++
  replicate 11 First ++ replicate 7 Second.

(** The world once multer has stored [clip], with one more file on disk that
    belongs to no request. *)
Definition noted_world : world string :=
  set_fs (write_file "notes.txt" "n" (fs (uploaded empty_world))) empty_world.

(** ** Notions used for the further properties *)

Section Further.

Context {content sample : Type}.

(** l.107-111: the whole [forEach] over a cleanup list. *)
Definition cleanup_all (l : list string) (d : filesystem content) : filesystem content :=
  foldl (λ d p, cleanup_file p d) d l.

(** The process with another value in the module variable [transcriber]. *)
Definition set_transcriber (tv : option (option (list sample) → except string))
    (E : env content sample) : env content sample :=
  Env (upload_name E) (now E) (transcode E) (wav_decode E) tv.

(** The collaborator calls of the handler for the request file [f], in
    program order: l.85, l.88, l.91 and l.96. *)
Definition stages (E : env content sample) (f : file) : list call :=
  [CallFfmpeg (convert_command (path f)) (wavFilePath (now E));
   CallReadFile (wavFilePath (now E)); CallWavDecode; CallTranscriber].

(** The handler is in its [finally] block or past it. *)
Definition in_cleanup (p : pc content sample) : bool :=
  match p with
  | AtFinally _ | Exited => true
  | _ => false
  end.

(** The handler is at the call of l.96. *)
Definition at_transcribe (p : pc content sample) : bool :=
  match p with
  | AtTranscribe _ => true
  | _ => false
  end.

(** The handler has not yet reached the call of l.96 and can still reach
    it: the number of steps it has taken on the way there. *)
Definition steps_taken (p : pc content sample) : option nat :=
  match p with
  | AtCheck => Some 0%nat
  | AtLogReceived _ => Some 1%nat
  | AtPushInput _ => Some 2%nat
  | AtWavPath _ => Some 3%nat
  | AtPushWav _ _ => Some 4%nat
  | AtConvert _ _ => Some 5%nat
  | Converting _ _ => Some 6%nat
  | AtResume _ _ => Some 7%nat
  | AtRead _ => Some 8%nat
  | AtDecode _ => Some 9%nat
  | AtLogTranscribing _ => Some 10%nat
  | AtTranscribe _ => Some 11%nat
  | _ => None
  end.

(** Whether the promises the handler awaits ever settle: the one of the
    transcoder (l.85) and the one of the model (l.96). The handler sets no
    timeout on either. *)
Record settling := Settling { transcoder_settles : bool; model_settles : bool }.

(** The handler is suspended on a promise that stays pending. *)
Definition blocked (P : settling) (p : pc content sample) : bool :=
  match p with
  | Converting _ _ => negb (transcoder_settles P)
  | AwaitTranscribe _ => negb (model_settles P)
  | _ => false
  end.

(** A step of the handler when promises may stay pending: a handler that
    awaits a promise that never settles stays where it is, and otherwise the
    step is the one of [step], with the answers [E] gives for the promises
    that do settle. *)
Definition step_pending (E : env content sample) (P : settling)
    (s : task content sample * world content) : task content sample * world content :=
  if blocked P (at_pc s.1) then s else step E s.

Fixpoint run_pending (E : env content sample) (P : settling) (n : nat)
    (s : task content sample * world content) : task content sample * world content :=
  match n with
  | O => s
  | S n' => run_pending E P n' (step_pending E P s)
  end.

End Further.

(** * Properties *)

Section Properties.

Context {content sample : Type}.
Implicit Types (E : env content sample) (w : world content) (t : task content sample).
Implicit Types (d : filesystem content) (s : task content sample * world content).
Implicit Types (p : string) (n : nat).

(** ** Running the machine *)

Lemma run_S E n s : run E (S n) s = run E n (step E s).
Proof. reflexivity. Qed.

Lemma run_add E n m s : run E (n + m) s = run E m (run E n s).
Proof. revert s. induction n as [|n IH]; intros s; [done|]. simpl. apply IH. Qed.

Lemma step_exited E t w : at_pc t = Exited → step E (t, w) = (t, w).
Proof. intros H. simpl. by rewrite H. Qed.

Lemma run_exited E n t w : at_pc t = Exited → run E n (t, w) = (t, w).
Proof.
  intros H. induction n as [|n IH]; [done|].
  by rewrite run_S, step_exited.
Qed.

(** Every step of a handler that has not exited uses up one of the steps it
    has left. *)
Lemma step_steps_left E t w :
  at_pc t ≠ Exited → (steps_left (step E (t, w)).1 < steps_left t)%nat.
Proof.
  destruct t as [rf q tf r]. unfold steps_left. simpl. intros Hq.
  destruct q; simpl; try lia; try done.
  - destruct rf; simpl; lia.
  - rewrite length_app. simpl. lia.
  - rewrite length_app. simpl. lia.
  - destruct (finish_convert _ _ _ _). simpl. lia.
  - destruct settled; simpl; lia.
  - destruct (readFileBuffer _ _); simpl; lia.
  - destruct (decodeWavToFloat32 _ _); simpl; lia.
  - destruct (transcriber E); simpl; lia.
  - destruct settled; simpl; lia.
  - destruct rest; simpl; lia.
Qed.

Lemma steps_left_exited t : steps_left t = 0 → at_pc t = Exited.
Proof. unfold steps_left. destruct (at_pc t); simpl; (done || lia). Qed.

Lemma run_exits E n s : (steps_left s.1 ≤ n)%nat → at_pc (run E n s).1 = Exited.
Proof.
  revert s. induction n as [|n IH]; intros [t w] Hn; simpl in *.
  - apply steps_left_exited. lia.
  - assert (at_pc t = Exited ∨ at_pc t ≠ Exited) as [Hx|Hx]
      by (destruct (at_pc t); (by left) || (by right)).
    + replace (run E n _) with (run E (S n) (t, w)) by done.
      by rewrite run_exited.
    + apply IH. pose proof (step_steps_left E t w Hx). simpl in *. lia.
Qed.

(** The handler reaches its end for every request and every behaviour of
    the collaborators. *)
Lemma handler_exits E rf w : at_pc (transcribe_handler E rf w).1 = Exited.
Proof. apply run_exits. by cbv. Qed.

(** ** The cleanup loop *)

Lemma cleanup_file_undeletable p d : undeletable (cleanup_file p d) = undeletable d.
Proof.
  unfold cleanup_file, unlinkSync.
  destruct (existsSync p d); [|done].
  destruct (files d !! p); [|done].
  by case_bool_decide.
Qed.

Lemma cleanup_file_dom p d :
  dom (files (cleanup_file p d)) ⊆ dom (files d) ∧
  (p ∈ dom (files (cleanup_file p d)) → p ∈ undeletable d).
Proof.
  unfold cleanup_file, unlinkSync, existsSync.
  case_bool_decide as Hex.
  - destruct Hex as [x Hx]. rewrite Hx.
    case_bool_decide; simpl; [done|].
    rewrite dom_delete_L. set_solver.
  - split; [done|]. intros Hin. by apply elem_of_dom in Hin.
Qed.

(** A removal that throws leaves the disk as it was. *)
Lemma cleanup_file_throw p d e : unlinkSync p d = Throw e → cleanup_file p d = d.
Proof. unfold cleanup_file. intros ->. by destruct (existsSync p d). Qed.

(** A removable file is gone after its turn. *)
Lemma cleanup_file_removes p d : p ∉ undeletable d → files (cleanup_file p d) !! p = None.
Proof.
  intros Hp. destruct (cleanup_file_dom p d) as [_ H].
  apply not_elem_of_dom. intros Hin. by apply Hp, H.
Qed.

(** From the [finally] block on, a step changes neither the console, nor the
    recorded calls, nor the response, nor the cleanup list. *)
Lemma step_finally_quiet E t w :
  (∃ rest, at_pc t = AtFinally rest) ∨ at_pc t = Exited →
  let s' := step E (t, w) in
  ((∃ rest, at_pc s'.1 = AtFinally rest) ∨ at_pc s'.1 = Exited) ∧
  console s'.2 = console w ∧ calls s'.2 = calls w ∧
  res s'.1 = res t ∧ tempFiles s'.1 = tempFiles t.
Proof.
  destruct t as [rf q tf r]. simpl. intros [[rest ->]| ->]; simpl.
  - destruct rest; simpl; eauto 10.
  - eauto 10.
Qed.

Lemma run_finally_quiet E n t w :
  (∃ rest, at_pc t = AtFinally rest) ∨ at_pc t = Exited →
  let s' := run E n (t, w) in
  console s'.2 = console w ∧ calls s'.2 = calls w ∧
  res s'.1 = res t ∧ tempFiles s'.1 = tempFiles t.
Proof.
  revert t w. induction n as [|n IH]; intros t w Hpc; [done|].
  rewrite run_S.
  destruct (step_finally_quiet E t w Hpc) as (Hpc' & Hc & Hk & Hr & Hf).
  destruct (step E (t, w)) as [t' w'] eqn:Hs. simpl in *.
  destruct (IH t' w' Hpc') as (Hc' & Hk' & Hr' & Hf').
  repeat split; congruence.
Qed.

(** The loop visits every recorded path in order, whatever happened to the
    paths before it. *)
Lemma run_cleanup E rest t w :
  at_pc t = AtFinally rest →
  run E (S (length rest)) (t, w) =
    (goto Exited t, set_fs (foldl (λ d p, cleanup_file p d) (fs w) rest) w).
Proof.
  revert t w. induction rest as [|p rest IH]; intros t w Hpc.
  - simpl. rewrite Hpc. by destruct w.
  - rewrite run_S. simpl step. rewrite Hpc.
    rewrite (IH (goto (AtFinally rest) t)) by done.
    by destruct t, w.
Qed.

(** ** The bookkeeping invariant *)

Lemma step_covered E D0 U s : covered D0 U s → covered D0 U (step E s).
Proof.
  destruct s as [[rf q tf r] w]. unfold covered, unrecorded_upload.
  destruct q; simpl; intros (HU & Hdom & Hpc).
  all: try (repeat split; set_solver).
  - destruct rf; simpl; repeat split; try done; set_solver.
  - unfold finish_convert.
    destruct (transcode _ _ _ _) as [x|e [x|]]; simpl; rewrite ?dom_insert_L;
      repeat split; try done; set_solver.
  - destruct settled; simpl; repeat split; try done; set_solver.
  - destruct (readFileBuffer _ _); simpl; repeat split; try done; set_solver.
  - destruct (decodeWavToFloat32 _ _); simpl; repeat split; try done; set_solver.
  - destruct (transcriber E) as [m|]; simpl; repeat split; try done; set_solver.
  - destruct settled; simpl; repeat split; try done; set_solver.
  - destruct rest as [|x rest]; simpl.
    + repeat split; try done. set_solver.
    + rewrite cleanup_file_undeletable.
      destruct (cleanup_file_dom x (fs w)) as [Hsub Hx].
      repeat split; try done; [set_solver|].
      intros y Hy. destruct (decide (y = x)) as [->|Hne]; [set_solver|].
      specialize (Hsub y Hy). set_solver.
Qed.

Lemma run_covered E D0 U n s : covered D0 U s → covered D0 U (run E n s).
Proof.
  revert s. induction n as [|n IH]; intros s Hs; [done|].
  apply IH, step_covered, Hs.
Qed.

(** The invariant holds when the handler starts after the upload
    middleware has let the request pass. *)
Lemma start_covered E u w d rf :
  upload_single E u (fs w) = (d, Passed rf) →
  covered (sample := sample) (dom (files (fs w))) (undeletable (fs w)) (start rf, set_fs d w).
Proof.
  unfold upload_single. intros H.
  destruct u as [u|]; [case_bool_decide|]; simplify_eq;
    unfold covered, unrecorded_upload; simpl; rewrite ?dom_insert_L;
    repeat split; set_solver.
Qed.

(** ** Executing the handler on known answers *)

Ltac exec1 :=
  rewrite run_S;
  cbn [step at_pc goto push send start req_file tempFiles res
       fs set_fs spawn_convert invoke console_log].

Lemma run_start_to_converting E f w :
  run E 6 (start (Some f), w) =
    (Task (Some f) (Converting (path f) (wavFilePath (now E)))
       [path f; wavFilePath (now E)] None,
     spawn_convert (path f) (wavFilePath (now E))
       (console_log (LogReceived (originalname f) (size f)) w)).
Proof. reflexivity. Qed.

Lemma read_written p (x : content) d : readFileBuffer p (write_file p x d) = Ok x.
Proof. unfold readFileBuffer, write_file. simpl. by rewrite lookup_insert_eq. Qed.

(** Once the [catch] block is entered with [e], the response is the 500 of
    l.104 with [e.message]. *)
Lemma catch_response E n t w e :
  at_pc t = AtCatch e → (2 ≤ n)%nat →
  res (run E n (t, w)).1 = Some (res_status_json 500 (error_body (message e))).
Proof.
  intros Hpc Hn. destruct t as [rf q tf r]. simpl in Hpc. subst q.
  destruct n as [|[|n]]; [lia..|].
  do 2 exec1.
  match goal with |- res (run E n (?t', ?w')).1 = _ =>
    destruct (run_finally_quiet E n t' w') as (_ & _ & Hr & _); [by left; eexists|]
  end.
  by rewrite Hr.
Qed.

(** Once l.100 is reached with [text], the response is the 200 with it. *)
Lemma respond_response E n t w text :
  at_pc t = AtRespond text → (1 ≤ n)%nat →
  res (run E n (t, w)).1 = Some (res_json (text_body text)).
Proof.
  intros Hpc Hn. destruct t as [rf q tf r]. simpl in Hpc. subst q.
  destruct n as [|n]; [lia|].
  exec1.
  match goal with |- res (run E n (?t', ?w')).1 = _ =>
    destruct (run_finally_quiet E n t' w') as (_ & _ & Hr & _); [by left; eexists|]
  end.
  by rewrite Hr.
Qed.

(** The response of the handler for a request with a file, by the answers
    of the collaborators. *)
Lemma handler_response_conversion_error E f w e partial :
  transcode E (convert_command (path f)) (wavFilePath (now E)) (fs w) = Errored e partial →
  res (transcribe_handler E (Some f) w).1 = Some (res_status_json 500 (error_body (message e))).
Proof.
  intros Ht. unfold transcribe_handler, handler_steps.
  change 18 with (6 + 12). rewrite run_add, run_start_to_converting.
  exec1. unfold finish_convert. cbn [fs spawn_convert invoke console_log]. rewrite Ht.
  destruct partial; exec1; by apply catch_response; [|lia].
Qed.

Lemma handler_response_decode_error E f w out e :
  transcode E (convert_command (path f)) (wavFilePath (now E)) (fs w) = Ended out →
  wav_decode E out = Throw e →
  res (transcribe_handler E (Some f) w).1 = Some (res_status_json 500 (error_body (message e))).
Proof.
  intros Ht Hd. unfold transcribe_handler, handler_steps.
  change 18 with (6 + 12). rewrite run_add, run_start_to_converting.
  exec1. unfold finish_convert. cbn [fs spawn_convert invoke console_log]. rewrite Ht.
  do 2 exec1. rewrite read_written.
  exec1. unfold decodeWavToFloat32. rewrite Hd.
  by apply catch_response; [|lia].
Qed.

Lemma handler_response_model E f w out channelData :
  transcode E (convert_command (path f)) (wavFilePath (now E)) (fs w) = Ended out →
  wav_decode E out = Ok channelData →
  res (transcribe_handler E (Some f) w).1 =
    match transcriber E with
    | None => Some (res_status_json 500 (error_body "transcriber is not a function"))
    | Some model =>
        match model (head channelData) with
        | Ok text => Some (res_json (text_body text))
        | Throw e => Some (res_status_json 500 (error_body (message e)))
        end
    end.
Proof.
  intros Ht Hd. unfold transcribe_handler, handler_steps.
  change 18 with (6 + 12). rewrite run_add, run_start_to_converting.
  exec1. unfold finish_convert. cbn [fs spawn_convert invoke console_log]. rewrite Ht.
  do 2 exec1. rewrite read_written.
  exec1. unfold decodeWavToFloat32. rewrite Hd.
  do 2 exec1.
  destruct (transcriber E) as [model|].
  - exec1. destruct (model (head channelData)) as [text|e].
    + exec1. by apply respond_response; [|lia].
    + by apply catch_response; [|lia].
  - by apply (catch_response _ _ _ _ (JsError _)); [|lia].
Qed.

(** ** The claims about the handler *)

(** C1, amended. For every request to [POST /transcribe], whatever stage it
    fails at, every file the request created is gone when it is over,
    except for files whose removal the file system refuses: a path that is
    on disk afterwards was on disk before the request or is undeletable. By
    then the handler has run to its end, whatever the request and the
    collaborators did. *)
Theorem temp_files_deleted_unless_refused E u w :
  dom (files (fs (post_transcribe E u w).1)) ⊆
    dom (files (fs w)) ∪ undeletable (fs w) ∧
  ∀ rf w0, at_pc (transcribe_handler E rf w0).1 = Exited.
Proof.
  split; [|apply handler_exits].
  unfold post_transcribe.
  destruct (upload_single E u (fs w)) as [d [rf|e]] eqn:Hu.
  - pose proof (run_covered E _ _ handler_steps _ (start_covered E u w d rf Hu)) as Hc.
    pose proof (handler_exits E rf (set_fs d w)) as Hx.
    unfold transcribe_handler in *.
    destruct (run E handler_steps (start rf, set_fs d w)) as [t w'].
    simpl in *. destruct Hc as (_ & _ & Hc). rewrite Hx in Hc. done.
  - unfold upload_single in Hu.
    destruct u as [u|]; [case_bool_decide|]; simplify_eq. simpl. set_solver.
Qed.

(** C3. A request that is handled while the model has not finished loading,
    so that [transcriber] is still undefined at the call of l.96, fails: it
    is answered with status 500 and a JSON [error] member. When conversion
    and decoding succeed, the failure is the [TypeError] raised by calling
    the undefined [transcriber], with its message. *)
Theorem unloaded_model_request_fails E f w :
  transcriber E = None →
  (∃ msg, res (transcribe_handler E (Some f) w).1 =
            Some (Response 500 (Json [("error", msg)]))) ∧
  (∀ out channelData,
     transcode E (convert_command (path f)) (wavFilePath (now E)) (fs w) = Ended out →
     wav_decode E out = Ok channelData →
     res (transcribe_handler E (Some f) w).1 =
       Some (Response 500 (Json [("error", "transcriber is not a function")]))).
Proof.
  intros HT. split.
  - destruct (transcode E (convert_command (path f)) (wavFilePath (now E)) (fs w))
      as [out|e partial] eqn:Ht.
    + destruct (wav_decode E out) as [channelData|e] eqn:Hd.
      * rewrite (handler_response_model E f w out channelData Ht Hd), HT. eauto.
      * rewrite (handler_response_decode_error E f w out e Ht Hd). eauto.
    + rewrite (handler_response_conversion_error E f w e partial Ht). eauto.
  - intros out channelData Ht Hd.
    by rewrite (handler_response_model E f w out channelData Ht Hd), HT.
Qed.

(** C4. When the conversion, the WAV decoding or the model inference of a
    request fails with an error, the response is status 500 with the JSON
    body [{ error: <the error's message> }]. *)
Theorem stage_failure_answers_500 E f w e :
  stage_failure E f (fs w) e →
  res (transcribe_handler E (Some f) w).1 =
    Some (Response 500 (Json [("error", message e)])).
Proof.
  intros [e' partial Ht|out e' Ht Hd|out channelData model e' Ht Hd HT Hm
         |out channelData Ht Hd HT].
  - by apply handler_response_conversion_error with partial.
  - by apply handler_response_decode_error with out.
  - by rewrite (handler_response_model E f w out channelData Ht Hd), HT, Hm.
  - by rewrite (handler_response_model E f w out channelData Ht Hd), HT.
Qed.

(** X12. When [req.file] is undefined, as for a form without any file part,
    the handler answers with status 400 and the JSON body
    [{ error: "No audio file provided" }]; it exits with an empty cleanup
    list and leaves the disk, the console and the list of collaborator calls
    as they were, so no later stage has run. *)
Theorem missing_file_answers_400 E w :
  transcribe_handler E None w =
    (Task None Exited [] (Some (Response 400 (Json [("error", "No audio file provided")]))), w) ∧
  post_transcribe E None w =
    (w, Some (Response 400 (Json [("error", "No audio file provided")]))).
Proof. split; [reflexivity|]. by destruct w. Qed.

(** C6. [convertAudioToWav] starts the transcoder exactly once, on the input
    path, with one audio channel, a 16000 Hz sample rate, the codec
    [pcm_s16le] and the container format [wav], saving to the output path.
    When the transcoder ends, the promise resolves with the output path and
    the file at that path holds what the transcoder produced; when it fails,
    the promise rejects with its error; the promise resolves only in the
    first case. No other file is touched and nothing is logged. *)
Theorem convert_invokes_transcoder E inputPath outputPath w :
  let r := convertAudioToWav E inputPath outputPath w in
  calls r.1 = (calls w ++
    [CallFfmpeg (FfmpegCommand inputPath (Some 1%N) (Some 16000%N)
                   (Some "pcm_s16le") (Some "wav")) outputPath])%list ∧
  (∀ out, transcode E (convert_command inputPath) outputPath (fs w) = Ended out →
     r.2 = Ok outputPath ∧ files (fs r.1) !! outputPath = Some out) ∧
  (∀ e partial,
     transcode E (convert_command inputPath) outputPath (fs w) = Errored e partial →
     r.2 = Throw e) ∧
  (∀ p, r.2 = Ok p →
     p = outputPath ∧
     ∃ out, transcode E (convert_command inputPath) outputPath (fs w) = Ended out ∧
            files (fs r.1) !! outputPath = Some out) ∧
  (∀ q, q ≠ outputPath → files (fs r.1) !! q = files (fs w) !! q) ∧
  console r.1 = console w.
Proof.
  unfold convertAudioToWav, finish_convert. simpl.
  destruct (transcode _ _ _ _) as [out|e [x|]] eqn:Ht; simpl.
  - split; [done|]. split.
    { intros out' [= <-]. split; [done|]. apply lookup_insert_eq. }
    split; [done|]. split.
    { intros p [= <-]. split; [done|]. exists out. split; [done|].
      apply lookup_insert_eq. }
    split; [|done]. intros q Hq. by apply lookup_insert_ne.
  - split; [done|]. split; [done|]. split.
    { by intros e' partial [= <- _]. }
    split; [done|]. split; [|done]. intros q Hq. by apply lookup_insert_ne.
  - split; [done|]. split; [done|]. split.
    { by intros e' partial [= <- _]. }
    done.
Qed.

(** C8, amended. During the cleanup, an error raised by the removal of a
    file is caught and discarded without being logged: from the [finally]
    block on nothing is written to the console and the response stays as it
    was, a removal that throws leaves the disk unchanged, and the loop goes
    on to every remaining path. *)
Theorem cleanup_errors_discarded_silently E rest t w :
  at_pc t = AtFinally rest →
  (∀ n, console (run E n (t, w)).2 = console w ∧ res (run E n (t, w)).1 = res t) ∧
  (∀ p d e, unlinkSync (content := content) p d = Throw e → cleanup_file p d = d) ∧
  run E (S (length rest)) (t, w) =
    (goto Exited t, set_fs (foldl (λ d p, cleanup_file p d) (fs w) rest) w).
Proof.
  intros Hpc. split; [|split].
  - intros n.
    destruct (run_finally_quiet E n t w) as (Hc & _ & Hr & _); [by left; eexists|].
    done.
  - apply cleanup_file_throw.
  - by apply run_cleanup.
Qed.

(** C9. [GET /health] is answered with status 200 and the JSON body
    [{ status: "ok", model: "whisper-tiny.en" }], whatever the state of the
    process, in particular whether or not the model is loaded; the handler
    changes nothing. *)
Theorem health_is_constant E w :
  get_health E w =
    (w, Response 200 (Json [("status", "ok"); ("model", "whisper-tiny.en")])).
Proof. reflexivity. Qed.

(** C10, amended. At every point of the handler: the path of the converted
    file is on the cleanup list before the transcoder is started; once the
    push of l.76 is done, every file that is on disk and was not there
    before the request is on the cleanup list; this holds in particular at
    every point where an error is caught. (The upload itself is written by
    the middleware before the handler starts, so before l.76 it is on disk
    without being on the list.) *)
Theorem temp_paths_recorded E u w d rf n :
  upload_single E u (fs w) = (d, Passed rf) →
  let s := run E n (start rf, set_fs d w) in
  (∀ i o, at_pc s.1 = AtConvert i o → o ∈ tempFiles s.1) ∧
  (past_upload_push (at_pc s.1) = true →
     dom (files (fs s.2)) ⊆ dom (files (fs w)) ∪ list_to_set (tempFiles s.1)) ∧
  (∀ e, at_pc s.1 = AtCatch e →
     dom (files (fs s.2)) ⊆ dom (files (fs w)) ∪ list_to_set (tempFiles s.1)).
Proof.
  intros Hu.
  pose proof (run_covered E _ _ n _ (start_covered E u w d rf Hu)) as Hc.
  destruct (run E n (start rf, set_fs d w)) as [t w']. simpl in *.
  destruct Hc as (_ & Hdom & Hpc). unfold unrecorded_upload in Hdom.
  split; [|split].
  - intros i o Hq. by rewrite Hq in Hpc.
  - intros Hpast. destruct (at_pc t); simpl in *; try done; set_solver.
  - intros e Hq. rewrite Hq in Hdom. set_solver.
Qed.

(** ** The path of the converted file *)

Lemma string_length_app (s1 s2 : string) :
  String.length (s1 +:+ s2) = (String.length s1 + String.length s2)%nat.
Proof. induction s1 as [|a s1 IH]; simpl; [done|]. by rewrite IH. Qed.

Lemma string_app_inj_r (s1 s2 t : string) : s1 +:+ t = s2 +:+ t → s1 = s2.
Proof.
  revert s2. induction s1 as [|a s1 IH]; intros [|b s2] H; simpl in *.
  - done.
  - apply (f_equal String.length) in H.
    rewrite ?string_length_app in H. simpl in H.
    rewrite ?string_length_app in H. lia.
  - apply (f_equal String.length) in H.
    rewrite ?string_length_app in H. simpl in H.
    rewrite ?string_length_app in H. lia.
  - injection H as -> H. f_equal. by apply IH.
Qed.

(** Two clock readings give the same path only if they are equal: the path
    tells requests apart exactly as far as the millisecond clock does. *)
Lemma wavFilePath_inj (a b : Z) : wavFilePath a = wavFilePath b → a = b.
Proof.
  unfold wavFilePath, path_join. intros H.
  do 3 apply (inj (String.app _)) in H.
  apply string_app_inj_r in H.
  by apply (inj pretty) in H.
Qed.

End Properties.

(** * Examples, witnesses and counterexamples on concrete requests *)

(** A request with a valid file, a working transcoder and a loaded model is
    answered with the transcript, and its two temporary files are gone. *)
Example transcribe_success :
  post_transcribe (ready_env "a1") (Some clip) empty_world =
    (World (Filesystem ∅ ∅)
       [LogReceived "clip.mp3" 3; LogTranscribing; LogTranscription "transcript of abc"]
       [CallFfmpeg (convert_command "uploads/a1") "uploads/converted_1700000000000.wav";
        CallReadFile "uploads/converted_1700000000000.wav"; CallWavDecode; CallTranscriber],
     Some (Response 200 (Json [("text", "transcript of abc")]))).
Proof. by vm_compute. Qed.

(** C1, counterexample. On a disk that refuses to remove the converted
    file, a successful request leaves that file behind: it was not on disk
    before the request and it is afterwards. *)
Lemma converted_file_left_behind :
  let w' := (post_transcribe (ready_env "a1") (Some clip) locked_world).1 in
  files (fs locked_world) !! "uploads/converted_1700000000000.wav" = None ∧
  files (fs w') !! "uploads/converted_1700000000000.wav" = Some "abc" ∧
  ¬ dom (files (fs w')) ⊆ dom (files (fs locked_world)).
Proof.
  assert (Hin : files (fs (post_transcribe (ready_env "a1") (Some clip) locked_world).1)
                  !! "uploads/converted_1700000000000.wav" = Some "abc") by (by vm_compute).
  split; [done|]. split; [done|].
  intros Hsub. specialize (Hsub "uploads/converted_1700000000000.wav").
  rewrite !elem_of_dom in Hsub. destruct Hsub as [x Hx]; [by eexists|]. done.
Qed.

(** C3, witness. *)
Lemma unloaded_model_request_fails_witness :
  transcriber (loading_env "a1") = None ∧
  (∃ msg, res (transcribe_handler (loading_env "a1") (Some first_file)
                 (uploaded empty_world)).1 =
            Some (Response 500 (Json [("error", msg)]))) ∧
  (∀ out channelData,
     transcode (loading_env "a1") (convert_command (path first_file))
       (wavFilePath (now (loading_env "a1"))) (fs (uploaded empty_world)) = Ended out →
     wav_decode (loading_env "a1") out = Ok channelData →
     res (transcribe_handler (loading_env "a1") (Some first_file)
            (uploaded empty_world)).1 =
       Some (Response 500 (Json [("error", "transcriber is not a function")]))).
Proof.
  split; [reflexivity|].
  apply (unloaded_model_request_fails (loading_env "a1") first_file (uploaded empty_world)).
  reflexivity.
Defined.

(** C4, witness: an upload the transcoder cannot read. *)
Lemma stage_failure_answers_500_witness :
  stage_failure (failing_env "a1") first_file (fs (uploaded empty_world))
    (JsError "ffmpeg exited with code 1: Invalid data found when processing input") ∧
  res (transcribe_handler (failing_env "a1") (Some first_file) (uploaded empty_world)).1 =
    Some (Response 500
            (Json [("error", "ffmpeg exited with code 1: Invalid data found when processing input")])).
Proof.
  assert (H : stage_failure (failing_env "a1") first_file (fs (uploaded empty_world))
                (JsError "ffmpeg exited with code 1: Invalid data found when processing input")).
  { by apply ConversionFailed with None. }
  split; [exact H|].
  exact (stage_failure_answers_500 (failing_env "a1") first_file (uploaded empty_world) _ H).
Defined.

(** C6, witness: the conversion of an upload the transcoder can read. *)
Lemma convert_invokes_transcoder_witness :
  transcode (ready_env "a1") (convert_command "uploads/a1") "uploads/out.wav"
    (fs (uploaded empty_world)) = Ended "abc" ∧
  (convertAudioToWav (ready_env "a1") "uploads/a1" "uploads/out.wav"
     (uploaded empty_world)).2 = Ok "uploads/out.wav" ∧
  files (fs (convertAudioToWav (ready_env "a1") "uploads/a1" "uploads/out.wav"
               (uploaded empty_world)).1) !! "uploads/out.wav" = Some "abc".
Proof.
  assert (H : transcode (ready_env "a1") (convert_command "uploads/a1") "uploads/out.wav"
                (fs (uploaded empty_world)) = Ended "abc") by reflexivity.
  split; [exact H|].
  exact (proj1 (proj2 (convert_invokes_transcoder (ready_env "a1") "uploads/a1"
                         "uploads/out.wav" (uploaded empty_world))) "abc" H).
Defined.

(** C7, the code at a failing input. Two requests with different uploads
    whose handlers read the same clock value compute the same path for their
    converted files. Each request alone is answered with its own transcript;
    in flight together, with both transcoders finishing before either
    handler resumes, the first request is answered with the transcript of
    the second request's audio, and the second finds the shared file already
    removed by the first one's cleanup and is answered with status 500. *)
Theorem same_millisecond_requests_collide :
  path first_file ≠ path second_file ∧
  wavFilePath (now (ready_env "a1")) = wavFilePath (now (ready_env "b2")) ∧
  res (transcribe_handler (ready_env "a1") (Some first_file) both_uploaded).1 =
    Some (Response 200 (Json [("text", "transcript of abc")])) ∧
  res (transcribe_handler (ready_env "b2") (Some second_file) both_uploaded).1 =
    Some (Response 200 (Json [("text", "transcript of xyz")])) ∧
  (λ '(t1, t2, _), (at_pc t1, res t1, at_pc t2, res t2)) <$>
    interleave (ready_env "a1") (ready_env "b2") None colliding_schedule
      (start (Some first_file), start (Some second_file), both_uploaded) =
  Some (Exited,
        Some (Response 200 (Json [("text", "transcript of xyz")])),
        Exited,
        Some (Response 500 (Json [("error",
          "ENOENT: no such file or directory, open 'uploads/converted_1700000000000.wav'")]))).
Proof. repeat split; by vm_compute. Qed.

(** C8, witness: the cleanup of a request on the disk that refuses to
    remove the converted file. *)
Lemma cleanup_errors_discarded_silently_witness :
  at_pc at_cleanup.1 = AtFinally ["uploads/a1"; "uploads/converted_1700000000000.wav"] ∧
  (∀ n, console (run (ready_env "a1") n (at_cleanup.1, at_cleanup.2)).2 = console at_cleanup.2 ∧
        res (run (ready_env "a1") n (at_cleanup.1, at_cleanup.2)).1 = res at_cleanup.1) ∧
  (∀ p d e, unlinkSync (content := string) p d = Throw e → cleanup_file p d = d) ∧
  run (ready_env "a1") 3 (at_cleanup.1, at_cleanup.2) =
    (goto Exited at_cleanup.1,
     set_fs (foldl (λ d p, cleanup_file p d) (fs at_cleanup.2)
               ["uploads/a1"; "uploads/converted_1700000000000.wav"]) at_cleanup.2).
Proof.
  split; [reflexivity|].
  apply (cleanup_errors_discarded_silently (ready_env "a1")
           ["uploads/a1"; "uploads/converted_1700000000000.wav"]
           at_cleanup.1 at_cleanup.2).
  reflexivity.
Defined.

(** C8, counterexample. The removal of the converted file throws during the
    cleanup of a request, and the console holds no entry for that error
    when the handler has exited: it holds what it held when the cleanup
    started. *)
Lemma removal_error_not_logged :
  let eperm :=
    JsError "EPERM: operation not permitted, unlink 'uploads/converted_1700000000000.wav'" in
  let final := run (ready_env "a1") 3 at_cleanup in
  at_pc at_cleanup.1 = AtFinally ["uploads/a1"; "uploads/converted_1700000000000.wav"] ∧
  existsSync "uploads/converted_1700000000000.wav" (cleanup_file "uploads/a1" (fs at_cleanup.2)) = true ∧
  unlinkSync "uploads/converted_1700000000000.wav" (cleanup_file "uploads/a1" (fs at_cleanup.2))
    = Throw eperm ∧
  at_pc final.1 = Exited ∧
  console final.2 =
    [LogReceived "clip.mp3" 3; LogTranscribing; LogTranscription "transcript of abc"] ∧
  LogError eperm ∉ console final.2.
Proof.
  cbv zeta. repeat split; try by vm_compute.
  assert (console (run (ready_env "a1") 3 at_cleanup).2 =
          [LogReceived "clip.mp3" 3; LogTranscribing; LogTranscription "transcript of abc"])
    as -> by (by vm_compute).
  set_solver.
Qed.

(** C10, witness: the handler of a request about to start the transcoder. *)
Lemma temp_paths_recorded_witness :
  upload_single (ready_env "a1") (Some clip) (fs empty_world) =
    (fs (uploaded empty_world), Passed (Some first_file)) ∧
  let s := run (ready_env "a1") 5
             (start (Some first_file), set_fs (fs (uploaded empty_world)) empty_world) in
  (∀ i o, at_pc s.1 = AtConvert i o → o ∈ tempFiles s.1) ∧
  (past_upload_push (at_pc s.1) = true →
     dom (files (fs s.2)) ⊆ dom (files (fs empty_world)) ∪ list_to_set (tempFiles s.1)) ∧
  (∀ e, at_pc s.1 = AtCatch e →
     dom (files (fs s.2)) ⊆ dom (files (fs empty_world)) ∪ list_to_set (tempFiles s.1)).
Proof.
  split; [reflexivity|].
  apply (temp_paths_recorded (ready_env "a1") (Some clip) empty_world
           (fs (uploaded empty_world)) (Some first_file) 5).
  reflexivity.
Defined.

(** C10, counterexample. After the check of l.69 and the log of l.73 the
    handler is about to push the upload path: the upload, written by the
    middleware for this request, is on disk, and the cleanup list is still
    empty. *)
Lemma upload_on_disk_before_recorded :
  let s := run (ready_env "a1") 2
             (start (Some first_file), set_fs (fs (uploaded empty_world)) empty_world) in
  upload_single (ready_env "a1") (Some clip) (fs empty_world) =
    (fs (uploaded empty_world), Passed (Some first_file)) ∧
  at_pc s.1 = AtPushInput first_file ∧
  tempFiles s.1 = [] ∧
  files (fs empty_world) !! "uploads/a1" = None ∧
  files (fs s.2) !! "uploads/a1" = Some "abc" ∧
  ¬ dom (files (fs s.2)) ⊆ dom (files (fs empty_world)) ∪ list_to_set (tempFiles s.1).
Proof.
  cbv zeta. repeat split; try by vm_compute.
  intros Hsub. specialize (Hsub "uploads/a1").
  rewrite elem_of_union, !elem_of_dom in Hsub.
  destruct Hsub as [[x Hx]|Hx]; [by eexists| |]; by vm_compute in Hx.
Qed.

(** * Further properties of the handler *)

Section FurtherProperties.

Context {content sample : Type}.
Implicit Types (E : env content sample) (w : world content) (t : task content sample).
Implicit Types (d : filesystem content) (s : task content sample * world content).
Implicit Types (p q : string) (l : list string) (n : nat) (f : file).

Ltac exec :=
  rewrite run_S;
  cbn [step at_pc goto push send start req_file tempFiles res
       fs set_fs spawn_convert invoke console_log].

(** ** The end of the handler *)

Lemma run_finally_exit E n t w :
  at_pc t = AtFinally (tempFiles t) → (S (length (tempFiles t)) ≤ n)%nat →
  run E n (t, w) = (goto Exited t, set_fs (cleanup_all (tempFiles t) (fs w)) w).
Proof.
  intros Hpc Hn.
  replace n with (S (length (tempFiles t)) + (n - S (length (tempFiles t))))%nat by lia.
  rewrite run_add, (run_cleanup E (tempFiles t) t w Hpc).
  by apply run_exited.
Qed.

(** From the [catch] block: the error is logged, answered with status 500,
    and the cleanup list is swept. *)
Lemma run_catch_exit E n t w e :
  at_pc t = AtCatch e → (3 + length (tempFiles t) ≤ n)%nat →
  run E n (t, w) =
    (Task (req_file t) Exited (tempFiles t)
       (Some (res_status_json 500 (error_body (message e)))),
     set_fs (cleanup_all (tempFiles t) (fs w)) (console_log (LogError e) w)).
Proof.
  intros Hpc Hn. destruct t as [rf q tf r]. simpl in *. subst q.
  destruct n as [|[|n]]; [lia..|].
  do 2 exec.
  rewrite run_finally_exit; [done..|simpl; lia].
Qed.

(** From l.98: the transcript is logged, answered with status 200, and the
    cleanup list is swept. *)
Lemma run_result_exit E n t w text :
  at_pc t = AtLogResult text → (3 + length (tempFiles t) ≤ n)%nat →
  run E n (t, w) =
    (Task (req_file t) Exited (tempFiles t) (Some (res_json (text_body text))),
     set_fs (cleanup_all (tempFiles t) (fs w)) (console_log (LogTranscription text) w)).
Proof.
  intros Hpc Hn. destruct t as [rf q tf r]. simpl in *. subst q.
  destruct n as [|[|n]]; [lia..|].
  do 2 exec.
  rewrite run_finally_exit; [done..|simpl; lia].
Qed.

(** The state in which the handler exits for a request with a file, by the
    answers of the collaborators. *)
Lemma handler_final_state E f w :
  transcribe_handler E (Some f) w =
    let up := path f in
    let wv := wavFilePath (now E) in
    let w1 := spawn_convert up wv (console_log (LogReceived (originalname f) (size f)) w) in
    let answered r w' :=
      (Task (Some f) Exited [up; wv] (Some r),
       set_fs (cleanup_all [up; wv] (fs w')) w') in
    let failed e w' :=
      answered (res_status_json 500 (error_body (message e))) (console_log (LogError e) w') in
    match transcode E (convert_command up) wv (fs w) with
    | Errored e None => failed e w1
    | Errored e (Some x) => failed e (set_fs (write_file wv x (fs w)) w1)
    | Ended out =>
        let w2 := invoke (CallReadFile wv) (set_fs (write_file wv out (fs w)) w1) in
        match wav_decode E out with
        | Throw e => failed e (invoke CallWavDecode w2)
        | Ok channelData =>
            let w3 := console_log LogTranscribing (invoke CallWavDecode w2) in
            match transcriber E with
            | None => failed (JsError "transcriber is not a function") w3
            | Some model =>
                match model (head channelData) with
                | Ok text =>
                    answered (res_json (text_body text))
                      (console_log (LogTranscription text) (invoke CallTranscriber w3))
                | Throw e => failed e (invoke CallTranscriber w3)
                end
            end
        end
    end.
Proof.
  unfold transcribe_handler, handler_steps.
  change 18%nat with (6 + 12)%nat. rewrite run_add, run_start_to_converting.
  exec. unfold finish_convert. cbn [fs spawn_convert invoke console_log].
  destruct (transcode _ _ _ _) as [out|e [x|]].
  - do 2 exec. rewrite read_written.
    exec. unfold decodeWavToFloat32.
    destruct (wav_decode E out) as [channelData|e].
    + do 2 exec. destruct (transcriber E) as [model|].
      * exec. destruct (model (head channelData)) as [text|e].
        -- erewrite (run_result_exit _ _ _ _ text); [done..|simpl; lia].
        -- erewrite (run_catch_exit _ _ _ _ e); [done..|simpl; lia].
      * erewrite (run_catch_exit _ _ _ _ (JsError _)); [done..|simpl; lia].
    + erewrite (run_catch_exit _ _ _ _ e); [done..|simpl; lia].
  - exec. erewrite (run_catch_exit _ _ _ _ e); [done..|simpl; lia].
  - exec. erewrite (run_catch_exit _ _ _ _ e); [done..|simpl; lia].
Qed.

(** ** The cleanup loop as a whole *)

Lemma cleanup_file_lookup p d q :
  files (cleanup_file p d) !! q =
    if bool_decide (q = p ∧ p ∉ undeletable d) then None else files d !! q.
Proof.
  unfold cleanup_file, existsSync, unlinkSync.
  case_bool_decide as Hex.
  - destruct Hex as [x Hx]. rewrite Hx.
    case_bool_decide as HU; simpl.
    + rewrite bool_decide_eq_false_2 by naive_solver. done.
    + case_bool_decide as Hq.
      * destruct Hq as [-> _]. apply lookup_delete_eq.
      * apply lookup_delete_ne. naive_solver.
  - case_bool_decide as Hq; [|done].
    destruct Hq as [-> _]. symmetry. by apply eq_None_not_Some in Hex.
Qed.

Lemma cleanup_all_undeletable l d : undeletable (cleanup_all l d) = undeletable d.
Proof.
  revert d. induction l as [|p l IH]; intros d; [done|].
  change (cleanup_all (p :: l) d) with (cleanup_all l (cleanup_file p d)).
  by rewrite IH, cleanup_file_undeletable.
Qed.

Lemma filesystem_eq d1 d2 :
  files d1 = files d2 → undeletable d1 = undeletable d2 → d1 = d2.
Proof. destruct d1, d2. simpl. by intros -> ->. Qed.

(** X6. After the cleanup loop a path is absent when it was on the list and
    the file system lets it be removed; every other path holds what it
    held, and a listed path that was already gone does no harm. *)
Theorem cleanup_all_lookup l d q :
  files (cleanup_all l d) !! q =
    if bool_decide (q ∈ l ∧ q ∉ undeletable d) then None else files d !! q.
Proof.
  revert d. induction l as [|p l IH]; intros d.
  - change (cleanup_all [] d) with d.
    rewrite bool_decide_eq_false_2; [done|]. set_solver.
  - change (cleanup_all (p :: l) d) with (cleanup_all l (cleanup_file p d)).
    rewrite IH, cleanup_file_undeletable, cleanup_file_lookup.
    repeat case_bool_decide; try done; set_solver.
Qed.

(** X7. The outcome of the cleanup loop depends only on which paths are on
    the list, not on their order nor on repetitions: sweeping again, or
    sweeping a path listed twice, changes nothing more. *)
Theorem cleanup_all_same_paths l l' d :
  (∀ q, q ∈ l ↔ q ∈ l') → cleanup_all l d = cleanup_all l' d.
Proof.
  intros Hl. apply filesystem_eq.
  - apply map_eq. intros q. rewrite !cleanup_all_lookup.
    repeat case_bool_decide; try done; naive_solver.
  - by rewrite !cleanup_all_undeletable.
Qed.

(** ** The handler from start to exit *)

Lemma blocked_settled (P : settling) (p0 : pc content sample) :
  transcoder_settles P = true → model_settles P = true → blocked P p0 = false.
Proof. intros Ht Hm. destruct p0; simpl; by rewrite ?Ht, ?Hm. Qed.

Lemma run_pending_settled E P n s :
  transcoder_settles P = true → model_settles P = true →
  run_pending E P n s = run E n s.
Proof.
  intros Ht Hm. revert s. induction n as [|n IH]; intros s; [done|].
  simpl. unfold step_pending. rewrite blocked_settled by done. apply IH.
Qed.

(** X1. When the promises of the transcoder and of the model settle, every
    request is answered, and in one of three ways: 400 with the fixed
    message when there is no file, and then nothing is logged; 200 with a
    transcript, which is the last line logged; or 500 with the message of an
    error, which is the last line logged. *)
Theorem handler_answers_and_logs E P rf w :
  transcoder_settles P = true → model_settles P = true →
  let s := run_pending E P handler_steps (start rf, w) in
  (rf = None ∧
   res s.1 = Some (Response 400 (Json [("error", "No audio file provided")])) ∧
   console s.2 = console w) ∨
  (∃ text,
     res s.1 = Some (Response 200 (Json [("text", text)])) ∧
     last (console s.2) = Some (LogTranscription text)) ∨
  (∃ e,
     res s.1 = Some (Response 500 (Json [("error", message e)])) ∧
     last (console s.2) = Some (LogError e)).
Proof.
  intros Hts Hms. cbv zeta. rewrite run_pending_settled by done.
  change (run E handler_steps (start rf, w)) with (transcribe_handler E rf w).
  destruct rf as [f|]; [|by left].
  right. rewrite handler_final_state. cbv zeta.
  destruct (transcode _ _ _ _) as [out|e [x|]].
  - destruct (wav_decode E out) as [channelData|e].
    + destruct (transcriber E) as [model|].
      * destruct (model (head channelData)) as [text|e].
        -- left. exists text. split; [done|]. simpl. apply last_snoc.
        -- right. exists e. split; [done|]. simpl. apply last_snoc.
      * right. eexists. split; [done|]. simpl. apply last_snoc.
    + right. exists e. split; [done|]. simpl. apply last_snoc.
  - right. exists e. split; [done|]. simpl. apply last_snoc.
  - right. exists e. split; [done|]. simpl. apply last_snoc.
Qed.

(** X2. When the transcoder ends, the decoder returns channels, the model is
    loaded and answers [text], the handler exits having answered 200 with
    [text], logged three lines, called the four collaborators in order on
    the upload and the converted path, and swept both paths. *)
Theorem handler_success E f w out channelData model text :
  transcode E (convert_command (path f)) (wavFilePath (now E)) (fs w) = Ended out →
  wav_decode E out = Ok channelData →
  transcriber E = Some model →
  model (head channelData) = Ok text →
  transcribe_handler E (Some f) w =
    (Task (Some f) Exited [path f; wavFilePath (now E)]
       (Some (Response 200 (Json [("text", text)]))),
     World
       (cleanup_all [path f; wavFilePath (now E)]
          (write_file (wavFilePath (now E)) out (fs w)))
       (console w ++ [LogReceived (originalname f) (size f); LogTranscribing;
                      LogTranscription text])%list
       (calls w ++ stages E f)%list).
Proof.
  intros Ht Hd HT Hm. rewrite handler_final_state. cbv zeta.
  rewrite Ht, Hd, HT, Hm. unfold stages.
  unfold set_fs, console_log, invoke, spawn_convert. simpl.
  by rewrite <- !(assoc_L (++)).
Qed.

(** X3. The collaborators are called in program order and a later one only
    after the earlier ones succeeded: after a failed conversion nothing is
    read or decoded; the model is called exactly when conversion and
    decoding succeeded and the model is loaded; the only file read is the
    converted one. *)
Theorem handler_calls E f w :
  let k := calls (transcribe_handler E (Some f) w).2 in
  let cv := transcode E (convert_command (path f)) (wavFilePath (now E)) (fs w) in
  (k = (calls w ++ take 1 (stages E f))%list ∧ ∃ e partial, cv = Errored e partial) ∨
  (k = (calls w ++ take 3 (stages E f))%list ∧
     ∃ out, cv = Ended out ∧
       ((∃ e, wav_decode E out = Throw e) ∨ transcriber E = None)) ∨
  (k = (calls w ++ stages E f)%list ∧
     ∃ out channelData model, cv = Ended out ∧ wav_decode E out = Ok channelData ∧
       transcriber E = Some model).
Proof.
  cbv zeta. rewrite handler_final_state. cbv zeta.
  unfold stages, set_fs, console_log, invoke, spawn_convert.
  destruct (transcode _ _ _ _) as [out|e [x|]].
  - destruct (wav_decode E out) as [channelData|e] eqn:Hd.
    + destruct (transcriber E) as [model|] eqn:HT.
      * right. right. split; [|by eauto 10].
        destruct (model (head channelData)); simpl; by rewrite <- !(assoc_L (++)).
      * right. left. split; [|by eauto 10]. simpl. by rewrite <- !(assoc_L (++)).
    + right. left. split; [|by eauto 10]. simpl. by rewrite <- !(assoc_L (++)).
  - left. split; [done|]. eauto.
  - left. split; [done|]. eauto.
Qed.

(** X4. A request changes no file other than its upload and its converted
    file, whatever the collaborators do. *)
Theorem handler_leaves_other_files E rf w q :
  (∀ f, rf = Some f → q ≠ path f) → q ≠ wavFilePath (now E) →
  files (fs (transcribe_handler E rf w).2) !! q = files (fs w) !! q.
Proof.
  intros Hup Hwv. destruct rf as [f|]; [|done].
  specialize (Hup f eq_refl).
  rewrite handler_final_state. cbv zeta.
  assert (Hsweep : ∀ d, files (cleanup_all [path f; wavFilePath (now E)] d) !! q = files d !! q).
  { intros d. rewrite cleanup_all_lookup. rewrite bool_decide_eq_false_2; [done|]. set_solver. }
  assert (Hwrite : ∀ x, files (write_file (wavFilePath (now E)) x (fs w)) !! q = files (fs w) !! q).
  { intros x. simpl. by rewrite lookup_insert_ne. }
  destruct (transcode _ _ _ _) as [out|e [x|]];
    [destruct (wav_decode E out) as [channelData|e];
       [destruct (transcriber E) as [model|];
          [destruct (model (head channelData))|]|]| |];
    cbn [snd fs set_fs console_log invoke spawn_convert]; by rewrite Hsweep, ?Hwrite.
Qed.

(** X5. When the file system lets both temporary paths be removed, the disk
    after a request with a file is the disk the handler started on without
    those two paths, whatever the outcome: the upload is gone, the converted
    file is gone, and so is any file that was at the converted path
    before. *)
Theorem handler_disk_after E f w :
  path f ∉ undeletable (fs w) → wavFilePath (now E) ∉ undeletable (fs w) →
  files (fs (transcribe_handler E (Some f) w).2) =
    delete (wavFilePath (now E)) (delete (path f) (files (fs w))).
Proof.
  intros Hup Hwv.
  rewrite handler_final_state. cbv zeta.
  assert (Hsweep : ∀ d, undeletable d = undeletable (fs w) →
            (∀ q, q ≠ wavFilePath (now E) → files d !! q = files (fs w) !! q) →
            files (cleanup_all [path f; wavFilePath (now E)] d) =
              delete (wavFilePath (now E)) (delete (path f) (files (fs w)))).
  { intros d HU Hd. apply map_eq. intros q. rewrite cleanup_all_lookup, HU.
    destruct (decide (q = wavFilePath (now E))) as [->|Hq1].
    { rewrite lookup_delete_eq, bool_decide_eq_true_2; [done|]. set_solver. }
    rewrite lookup_delete_ne by done.
    destruct (decide (q = path f)) as [->|Hq2].
    { rewrite lookup_delete_eq, bool_decide_eq_true_2; [done|]. set_solver. }
    rewrite lookup_delete_ne by done.
    rewrite bool_decide_eq_false_2 by set_solver. by apply Hd. }
  assert (Hwrite : ∀ x q, q ≠ wavFilePath (now E) →
            files (write_file (wavFilePath (now E)) x (fs w)) !! q = files (fs w) !! q).
  { intros x q Hq. simpl. by rewrite lookup_insert_ne. }
  destruct (transcode _ _ _ _) as [out|e [x|]];
    [destruct (wav_decode E out) as [channelData|e];
       [destruct (transcriber E) as [model|];
          [destruct (model (head channelData))|]|]| |];
    cbn [snd fs set_fs console_log invoke spawn_convert]; apply Hsweep; auto.
Qed.

(** ** The order of the answer and the cleanup *)

Lemma step_answer_order E (w0 : world content) t w :
  (in_cleanup (at_pc t) = true ↔ is_Some (res t)) ∧
  (in_cleanup (at_pc t) = false →
     ∀ q, is_Some (files (fs w0) !! q) → is_Some (files (fs w) !! q)) →
  let s' := step E (t, w) in
  (in_cleanup (at_pc s'.1) = true ↔ is_Some (res s'.1)) ∧
  (in_cleanup (at_pc s'.1) = false →
     ∀ q, is_Some (files (fs w0) !! q) → is_Some (files (fs s'.2) !! q)).
Proof.
  destruct t as [rf pc0 tf r]. simpl. intros [Hres Hkeep].
  assert (Hsent : ∀ x : response, true = true ↔ is_Some (Some x)) by (by split; eauto).
  destruct pc0; simpl in *.
  all: try (destruct rf as [f0|]).
  all: try (destruct settled).
  all: try (destruct rest).
  all: try (destruct (readFileBuffer _ _)).
  all: try (destruct (decodeWavToFloat32 _ _)).
  all: try (destruct (transcriber E)).
  all: simpl.
  all: try (split; [first [exact Hres | apply Hsent]|];
            first [by intros ? | exact Hkeep]).
  all: unfold finish_convert.
  all: destruct (transcode _ _ _ _) as [x|err [x|]]; simpl; (split; [exact Hres|]).
  all: intros _ q Hq; specialize (Hkeep eq_refl q Hq).
  all: try done; apply lookup_insert_is_Some'; by right.
Qed.

(** X8. At every point of the handler, the response has been sent exactly
    when the handler is in its [finally] block or past it; and as long as no
    response has been sent, no file that was on disk when the handler
    started has been removed. *)
Theorem handler_answers_before_cleanup E rf w n :
  let s := run E n (start rf, w) in
  (in_cleanup (at_pc s.1) = true ↔ is_Some (res s.1)) ∧
  (res s.1 = None →
     ∀ q, is_Some (files (fs w) !! q) → is_Some (files (fs s.2) !! q)).
Proof.
  cbv zeta.
  assert (H : (in_cleanup (at_pc (run E n (start rf, w)).1) = true ↔
               is_Some (res (run E n (start rf, w)).1)) ∧
              (in_cleanup (at_pc (run E n (start rf, w)).1) = false →
               ∀ q, is_Some (files (fs w) !! q) →
                    is_Some (files (fs (run E n (start rf, w)).2) !! q))).
  { assert (Hgen : ∀ t w1,
      ((in_cleanup (at_pc t) = true ↔ is_Some (res t)) ∧
       (in_cleanup (at_pc t) = false →
          ∀ q, is_Some (files (fs w) !! q) → is_Some (files (fs w1) !! q))) →
      (in_cleanup (at_pc (run E n (t, w1)).1) = true ↔ is_Some (res (run E n (t, w1)).1)) ∧
      (in_cleanup (at_pc (run E n (t, w1)).1) = false →
         ∀ q, is_Some (files (fs w) !! q) →
              is_Some (files (fs (run E n (t, w1)).2) !! q))).
    { induction n as [|n IH]; intros t w1 Ht; [done|].
      rewrite run_S.
      pose proof (step_answer_order E w t w1 Ht) as Hs.
      destruct (step E (t, w1)) as [t' w']. by apply IH. }
    apply Hgen. simpl. split; [|done]. split; [done|]. by intros []. }
  destruct H as [Hiff Hkeep]. split; [done|].
  intros Hnone. apply Hkeep.
  destruct (in_cleanup _); [|done].
  destruct Hiff as [Hiff _]. specialize (Hiff eq_refl). rewrite Hnone in Hiff.
  by destruct Hiff.
Qed.

(** ** Promises that stay pending *)

Lemma run_pending_S E P n s :
  run_pending E P (S n) s = run_pending E P n (step_pending E P s).
Proof. reflexivity. Qed.

Lemma run_pending_add E P n m s :
  run_pending E P (n + m) s = run_pending E P m (run_pending E P n s).
Proof. revert s. induction n as [|n IH]; intros s; [done|]. simpl. apply IH. Qed.

Lemma run_pending_blocked E P n s :
  blocked P (at_pc s.1) = true → run_pending E P n s = s.
Proof.
  intros Hb. induction n as [|n IH]; [done|].
  rewrite run_pending_S. unfold step_pending. by rewrite Hb.
Qed.

Lemma step_pending_in_cleanup E P s :
  in_cleanup (at_pc s.1) = true → in_cleanup (at_pc (step_pending E P s).1) = true.
Proof.
  destruct s as [[rf pc0 tf r] w]. unfold step_pending. simpl.
  destruct pc0; try done; simpl; intros _.
  by destruct rest.
Qed.

Lemma run_pending_in_cleanup E P n s :
  in_cleanup (at_pc s.1) = true → in_cleanup (at_pc (run_pending E P n s).1) = true.
Proof.
  revert s. induction n as [|n IH]; intros s Hs; [done|].
  rewrite run_pending_S. by apply IH, step_pending_in_cleanup.
Qed.

Lemma run_pending_answer_order E P (w0 : world content) n t w :
  (in_cleanup (at_pc t) = true ↔ is_Some (res t)) ∧
  (in_cleanup (at_pc t) = false →
     ∀ q, is_Some (files (fs w0) !! q) → is_Some (files (fs w) !! q)) →
  let s' := run_pending E P n (t, w) in
  (in_cleanup (at_pc s'.1) = true ↔ is_Some (res s'.1)) ∧
  (in_cleanup (at_pc s'.1) = false →
     ∀ q, is_Some (files (fs w0) !! q) → is_Some (files (fs s'.2) !! q)).
Proof.
  revert t w. induction n as [|n IH]; intros t w Ht; [done|].
  rewrite run_pending_S. unfold step_pending.
  destruct (blocked P (at_pc (t, w).1)); [by apply IH|].
  pose proof (step_answer_order E w0 t w Ht) as Hs.
  destruct (step E (t, w)) as [t' w']. by apply IH.
Qed.

Ltac execp :=
  rewrite run_pending_S; unfold step_pending;
  cbn [fst blocked step at_pc goto push send start req_file tempFiles res
       fs set_fs spawn_convert invoke console_log].

(** The handler gets stuck, outside the [finally] block, on the promise
    that stays pending. *)
Lemma pending_reaches_block E P f w :
  transcoder_settles P = false ∨
  (model_settles P = false ∧
   ∃ out channelData model,
     transcode E (convert_command (path f)) (wavFilePath (now E)) (fs w) = Ended out ∧
     wav_decode E out = Ok channelData ∧ transcriber E = Some model) →
  ∃ k, blocked P (at_pc (run_pending E P k (start (Some f), w)).1) = true ∧
       in_cleanup (at_pc (run_pending E P k (start (Some f), w)).1) = false.
Proof.
  intros H.
  destruct (transcoder_settles P) eqn:Hts.
  - destruct H as [H|(Hms & out & channelData & model & Ht & Hd & HT)]; [done|].
    exists 12%nat.
    do 6 execp. execp. rewrite Hts. cbn [negb].
    unfold finish_convert. cbn [fs spawn_convert invoke console_log]. rewrite Ht.
    do 2 execp. rewrite read_written.
    execp. unfold decodeWavToFloat32. rewrite Hd.
    do 2 execp. rewrite HT.
    simpl. by rewrite Hms.
  - exists 6%nat. simpl. by rewrite Hts.
Qed.

(** X11. The handler sets no timeout on the promises it awaits: when the
    transcoder never settles, or the transcoder ends, the decoding succeeds
    and the loaded model never settles, the request is never answered, the
    handler never reaches its [finally] block, and no file that was on disk
    when it started is ever removed, the upload included. *)
Theorem pending_promise_never_answered E P f w n :
  transcoder_settles P = false ∨
  (model_settles P = false ∧
   ∃ out channelData model,
     transcode E (convert_command (path f)) (wavFilePath (now E)) (fs w) = Ended out ∧
     wav_decode E out = Ok channelData ∧ transcriber E = Some model) →
  let s := run_pending E P n (start (Some f), w) in
  res s.1 = None ∧
  in_cleanup (at_pc s.1) = false ∧
  ∀ q, is_Some (files (fs w) !! q) → is_Some (files (fs s.2) !! q).
Proof.
  intros H. cbv zeta.
  destruct (pending_reaches_block E P f w H) as (k & Hb & Hk).
  assert (Hout : in_cleanup (at_pc (run_pending E P n (start (Some f), w)).1) = false).
  { destruct (Nat.le_gt_cases k n) as [Hle|Hgt].
    - replace n with (k + (n - k))%nat by lia.
      by rewrite run_pending_add, run_pending_blocked.
    - destruct (in_cleanup (at_pc (run_pending E P n (start (Some f), w)).1)) eqn:Hn; [|done].
      replace k with (n + (k - n))%nat in Hk by lia.
      rewrite run_pending_add in Hk.
      by rewrite (run_pending_in_cleanup E P (k - n) _ Hn) in Hk. }
  destruct (run_pending_answer_order E P w n (start (Some f)) w) as [Hiff Hkeep].
  { simpl. split; [|done]. split; [done|]. by intros []. }
  cbv zeta in Hiff, Hkeep.
  split; [|split; [done|by apply Hkeep]].
  destruct (res (run_pending E P n (start (Some f), w)).1) eqn:Hres; [|done].
  destruct Hiff as [_ Hiff]. rewrite Hiff in Hout by eauto. done.
Qed.

(** ** The model variable is read only at l.96 *)

Lemma run_S_end E n s : run E (S n) s = step E (run E n s).
Proof. revert s. induction n as [|n IH]; intros s; [done|]. rewrite run_S. apply IH. Qed.

Lemma step_set_transcriber E tv t w :
  at_transcribe (at_pc t) = false →
  step (set_transcriber tv E) (t, w) = step E (t, w).
Proof. destruct t as [rf pc0 tf r]. simpl. by destruct pc0. Qed.

(** On the way to l.96 every step advances the count; off that way the
    handler does not come back to it. *)
Lemma step_steps_taken E t w :
  match steps_taken (at_pc t), steps_taken (at_pc (step E (t, w)).1) with
  | Some j, Some j' => j' = S j
  | None, Some _ => False
  | _, None => True
  end.
Proof.
  destruct t as [rf pc0 tf r]. simpl.
  destruct pc0; simpl; try done.
  - by destruct rf.
  - by destruct (finish_convert _ _ _ _).
  - by destruct settled.
  - by destruct (readFileBuffer _ _).
  - by destruct (decodeWavToFloat32 _ _).
  - by destruct (transcriber E).
  - by destruct settled.
  - by destruct rest.
Qed.

Lemma run_steps_taken E rf w n j :
  steps_taken (at_pc (run E n (start rf, w)).1) = Some j → j = n.
Proof.
  revert j. induction n as [|n IH]; intros j.
  - simpl. by intros [= <-].
  - rewrite run_S_end.
    destruct (run E n (start rf, w)) as [t w'] eqn:Hrun. simpl in IH.
    pose proof (step_steps_taken E t w') as Hs.
    destruct (steps_taken (at_pc t)) as [i|];
      destruct (steps_taken (at_pc (step E (t, w')).1)) as [i'|]; try done.
    intros [= <-]. by rewrite Hs, (IH i eq_refl).
Qed.

Lemma run_set_transcriber E tv rf w n :
  (n ≤ 11)%nat →
  run (set_transcriber tv E) n (start rf, w) = run E n (start rf, w).
Proof.
  induction n as [|n IH]; intros Hn; [done|].
  rewrite !run_S_end, IH by lia.
  destruct (run E n (start rf, w)) as [t w'] eqn:Hrun.
  apply step_set_transcriber.
  destruct (at_pc t) eqn:Hpc; try done.
  pose proof (run_steps_taken E rf w n 11) as Hj.
  rewrite Hrun in Hj. simpl in Hj. rewrite Hpc in Hj. specialize (Hj eq_refl). lia.
Qed.

(** X9. The handler reads the module variable [transcriber] only when it
    reaches l.96: a request whose first [n] steps, up to the eleven that lead
    to l.96, run while the variable holds one value, and whose remaining
    steps run after it was assigned another, ends exactly as a request
    handled entirely with the new value. So a request that arrives while the
    model is loading is served by the model when the load completes before
    the request gets to the inference call. *)
Theorem transcriber_read_at_call E tv rf w n :
  (n ≤ 11)%nat →
  run (set_transcriber tv E) (handler_steps - n) (run E n (start rf, w)) =
    transcribe_handler (set_transcriber tv E) rf w.
Proof.
  intros Hn. rewrite <- (run_set_transcriber E tv rf w n Hn), <- run_add.
  unfold transcribe_handler, handler_steps. f_equal. lia.
Qed.

(** X10. Requests whose handlers read different clock values get different
    paths for their converted files. *)
Theorem distinct_readings_distinct_paths (a b : Z) :
  a ≠ b → wavFilePath a ≠ wavFilePath b.
Proof. intros Hab Hp. by apply Hab, wavFilePath_inj. Qed.

End FurtherProperties.

(** * Witnesses of the further properties *)

(** The late assignment of the model on a concrete request: the handler runs
    seven steps while the model is loading and the rest once it is loaded,
    and answers with the transcript. *)
Example late_model_serves_request :
  res (run (set_transcriber (Some naming_model) (loading_env "a1")) 11
         (run (loading_env "a1") 7 (start (Some first_file), uploaded empty_world))).1 =
    Some (Response 200 (Json [("text", "transcript of abc")])).
Proof. by vm_compute. Qed.

(** X2, witness. *)
Lemma handler_success_witness :
  transcode (ready_env "a1") (convert_command (path first_file))
    (wavFilePath (now (ready_env "a1"))) (fs (uploaded empty_world)) = Ended "abc" ∧
  wav_decode (ready_env "a1") "abc" = Ok [["abc"]] ∧
  transcriber (ready_env "a1") = Some naming_model ∧
  naming_model (head [["abc"]]) = Ok "transcript of abc" ∧
  transcribe_handler (ready_env "a1") (Some first_file) (uploaded empty_world) =
    (Task (Some first_file) Exited [path first_file; wavFilePath (now (ready_env "a1"))]
       (Some (Response 200 (Json [("text", "transcript of abc")]))),
     World
       (cleanup_all [path first_file; wavFilePath (now (ready_env "a1"))]
          (write_file (wavFilePath (now (ready_env "a1"))) "abc" (fs (uploaded empty_world))))
       (console (uploaded empty_world) ++
          [LogReceived (originalname first_file) (size first_file); LogTranscribing;
           LogTranscription "transcript of abc"])%list
       (calls (uploaded empty_world) ++ stages (ready_env "a1") first_file)%list).
Proof.
  repeat (split; [reflexivity|]).
  apply (handler_success (ready_env "a1") first_file (uploaded empty_world)
           "abc" [["abc"]] naming_model "transcript of abc"); reflexivity.
Defined.

(** X4, witness: the file [notes.txt] during a request. *)
Lemma handler_leaves_other_files_witness :
  (∀ f, Some first_file = Some f → "notes.txt" ≠ path f) ∧
  "notes.txt" ≠ wavFilePath (now (ready_env "a1")) ∧
  files (fs (transcribe_handler (ready_env "a1") (Some first_file) noted_world).2)
    !! "notes.txt" = files (fs noted_world) !! "notes.txt".
Proof.
  assert (H1 : ∀ f, Some first_file = Some f → "notes.txt" ≠ path f).
  { intros f Hf. injection Hf as <-. discriminate. }
  assert (H2 : "notes.txt" ≠ wavFilePath (now (ready_env "a1"))).
  { vm_compute. discriminate. }
  split; [exact H1|]. split; [exact H2|].
  exact (handler_leaves_other_files (ready_env "a1") (Some first_file) noted_world
           "notes.txt" H1 H2).
Defined.

(** X5, witness: the disk after a request whose transcoder fails. *)
Lemma handler_disk_after_witness :
  (path first_file ∉ undeletable (fs noted_world)) ∧
  (wavFilePath (now (failing_env "a1")) ∉ undeletable (fs noted_world)) ∧
  files (fs (transcribe_handler (failing_env "a1") (Some first_file) noted_world).2) =
    delete (wavFilePath (now (failing_env "a1")))
      (delete (path first_file) (files (fs noted_world))).
Proof.
  assert (H1 : path first_file ∉ undeletable (fs noted_world)).
  { apply not_elem_of_empty. }
  assert (H2 : wavFilePath (now (failing_env "a1")) ∉ undeletable (fs noted_world)).
  { apply not_elem_of_empty. }
  split; [exact H1|]. split; [exact H2|].
  exact (handler_disk_after (failing_env "a1") first_file noted_world H1 H2).
Defined.

(** X7, witness: a path listed twice. *)
Lemma cleanup_all_same_paths_witness :
  (∀ q, q ∈ ["uploads/a1"; "uploads/a1"] ↔ q ∈ ["uploads/a1"]) ∧
  cleanup_all ["uploads/a1"; "uploads/a1"] (fs (uploaded empty_world)) =
    cleanup_all ["uploads/a1"] (fs (uploaded empty_world)).
Proof.
  assert (H : ∀ q : string, q ∈ ["uploads/a1"; "uploads/a1"] ↔ q ∈ ["uploads/a1"]).
  { intros q. rewrite !elem_of_cons. tauto. }
  split; [exact H|].
  exact (cleanup_all_same_paths _ _ (fs (uploaded empty_world)) H).
Defined.

(** X9, witness: the model is assigned after seven steps of a request. *)
Lemma transcriber_read_at_call_witness :
  (7 ≤ 11)%nat ∧
  run (set_transcriber (Some naming_model) (loading_env "a1")) (handler_steps - 7)
    (run (loading_env "a1") 7 (start (Some first_file), uploaded empty_world)) =
  transcribe_handler (set_transcriber (Some naming_model) (loading_env "a1"))
    (Some first_file) (uploaded empty_world).
Proof.
  assert (H : (7 ≤ 11)%nat) by lia.
  split; [exact H|].
  exact (transcriber_read_at_call (loading_env "a1") (Some naming_model)
           (Some first_file) (uploaded empty_world) 7 H).
Defined.

(** X10, witness: two consecutive milliseconds. *)
Lemma distinct_readings_distinct_paths_witness :
  clock ≠ (clock + 1)%Z ∧ wavFilePath clock ≠ wavFilePath (clock + 1).
Proof.
  assert (H : clock ≠ (clock + 1)%Z) by (unfold clock; lia).
  split; [exact H|].
  exact (distinct_readings_distinct_paths clock (clock + 1) H).
Defined.

(** X1, witness: a request whose promises settle. *)
Lemma handler_answers_and_logs_witness :
  transcoder_settles (Settling true true) = true ∧
  model_settles (Settling true true) = true ∧
  let s := run_pending (ready_env "a1") (Settling true true) handler_steps
             (start (Some first_file), uploaded empty_world) in
  (Some first_file = None ∧
   res s.1 = Some (Response 400 (Json [("error", "No audio file provided")])) ∧
   console s.2 = console (uploaded empty_world)) ∨
  (∃ text,
     res s.1 = Some (Response 200 (Json [("text", text)])) ∧
     last (console s.2) = Some (LogTranscription text)) ∨
  (∃ e,
     res s.1 = Some (Response 500 (Json [("error", message e)])) ∧
     last (console s.2) = Some (LogError e)).
Proof.
  split; [reflexivity|]. split; [reflexivity|].
  apply (handler_answers_and_logs (ready_env "a1") (Settling true true)
           (Some first_file) (uploaded empty_world)); reflexivity.
Defined.

(** X11, witness: a transcoder that never ends, a hundred steps on. *)
Lemma pending_promise_never_answered_witness :
  (transcoder_settles (Settling false true) = false ∨
   (model_settles (Settling false true) = false ∧
    ∃ out channelData model,
      transcode (ready_env "a1") (convert_command (path first_file))
        (wavFilePath (now (ready_env "a1"))) (fs (uploaded empty_world)) = Ended out ∧
      wav_decode (ready_env "a1") out = Ok channelData ∧
      transcriber (ready_env "a1") = Some model)) ∧
  let s := run_pending (ready_env "a1") (Settling false true) 100
             (start (Some first_file), uploaded empty_world) in
  res s.1 = None ∧
  in_cleanup (at_pc s.1) = false ∧
  ∀ q, is_Some (files (fs (uploaded empty_world)) !! q) → is_Some (files (fs s.2) !! q).
Proof.
  assert (H : transcoder_settles (Settling false true) = false ∨
              (model_settles (Settling false true) = false ∧
               ∃ out channelData model,
                 transcode (ready_env "a1") (convert_command (path first_file))
                   (wavFilePath (now (ready_env "a1"))) (fs (uploaded empty_world)) = Ended out ∧
                 wav_decode (ready_env "a1") out = Ok channelData ∧
                 transcriber (ready_env "a1") = Some model)).
  { left. reflexivity. }
  split; [exact H|].
  exact (pending_promise_never_answered (ready_env "a1") (Settling false true)
           first_file (uploaded empty_world) 100 H).
Defined.
